(** * Pulumi-Demo: the network topology declaration of [infra/__main__.py]

  The program is a straight-line Pulumi script.  It registers eight AWS
    resources with the Pulumi engine, reads a public key from the current
  working directory and exports two stack outputs.

  The embedding follows the script statement by statement:
    - every [ec2.X(name, ...)] call appends a resource description to the
      list of registered resources and returns a handle whose attributes
      ([.id], [.public_ip], [.key_name]) are engine-resolved outputs;
    - [pulumi.export] assigns into the dictionary of stack outputs;
    - [get_availability_zones()], [names[0]], [os.getcwd()] and
      [open(...).read()] can raise, so the script runs in a
      state-and-exception monad: an exception stops the run and keeps
      what was registered before it. *)

From Stdlib Require Import ZArith Ascii String List Lia.
From stdpp Require Import gmap strings list fin_maps.

Local Open Scope Z_scope.

(** ** Exceptions the script can meet *)

Inductive exn : Type :=
| OSError (errno : Z) (filename : string)   (* open(): ENOENT = 2, EACCES = 13, ... *)
| UnicodeDecodeError                        (* read(): bytes that are not text *)
| IndexError                                (* names[0] on an empty list *)
| InvokeError (message : string).           (* get_availability_zones() failed *)

(** ** Pulumi outputs *)

Inductive ResourceType : Type :=
| TVpc | TInternetGateway | TSubnet | TRouteTable | TRouteTableAssociation
| TSecurityGroup | TKeyPair | TInstance.

(** A registered resource is identified by its type and logical name. *)
Record Handle : Type := { h_type : ResourceType; h_name : string }.

(** [pulumi.Output]: a plain Python value, an attribute of a registered
    resource that the engine fills in, or [Output.concat] of several. *)
#[warnings="-register-all"] Inductive Output : Type :=
| Known (s : string)
| Attr (r : Handle) (attribute : string)
| Concat (parts : list Output).

(** What the engine assigns to the attributes of the resources it creates. *)
Definition Engine : Type := Handle -> string -> string.

Fixpoint resolve (eng : Engine) (o : Output) : string :=
  match o with
  | Known s => s
  | Attr r a => eng r a
  | Concat parts =>
      (fix join (l : list Output) : string :=
         match l with
         | [] => EmptyString
         | p :: l' => resolve eng p +:+ join l'
         end) parts
  end.

Module Output.
(** [pulumi.Output.concat] of the given arguments, in order. *)
Definition concat (args : list Output) : Output := Concat args.
End Output.

(** ** Resource arguments, with the attribute names of the SDK *)

Module VpcArgs.
Record t : Type := {
  cidr_block : string;
  enable_dns_hostnames : bool;
  enable_dns_support : bool;
  tags : gmap string string }.
End VpcArgs.

Module InternetGatewayArgs.
Record t : Type := {
  vpc_id : Output;
  tags : gmap string string }.
End InternetGatewayArgs.

Module SubnetArgs.
Record t : Type := {
  vpc_id : Output;
  cidr_block : string;
  map_public_ip_on_launch : bool;
  availability_zone : string;
  tags : gmap string string }.
End SubnetArgs.

Module RouteTableRouteArgs.
Record t : Type := {
  cidr_block : string;
  gateway_id : Output }.
End RouteTableRouteArgs.

Module RouteTableArgs.
Record t : Type := {
  vpc_id : Output;
  routes : list RouteTableRouteArgs.t;
  tags : gmap string string }.
End RouteTableArgs.

Module RouteTableAssociationArgs.
Record t : Type := {
  subnet_id : Output;
  route_table_id : Output }.
End RouteTableAssociationArgs.

Module SecurityGroupIngressArgs.
Record t : Type := {
  description : string;
  from_port : Z;
  to_port : Z;
  protocol : string;
  cidr_blocks : list string }.
End SecurityGroupIngressArgs.

Module SecurityGroupEgressArgs.
Record t : Type := {
  from_port : Z;
  to_port : Z;
  protocol : string;
  cidr_blocks : list string }.
End SecurityGroupEgressArgs.

Module SecurityGroupArgs.
Record t : Type := {
  description : string;
  vpc_id : Output;
  ingress : list SecurityGroupIngressArgs.t;
  egress : list SecurityGroupEgressArgs.t;
  tags : gmap string string }.
End SecurityGroupArgs.

Module KeyPairArgs.
Record t : Type := {
  key_name : string;
  public_key : string }.
End KeyPairArgs.

Module InstanceArgs.
Record t : Type := {
  instance_type : string;
  ami : string;
  subnet_id : Output;
  vpc_security_group_ids : list Output;
  key_name : Output;
  tags : gmap string string }.
End InstanceArgs.

(** A resource description as handed to the engine. *)
Inductive Resource : Type :=
| VpcDecl (name : string) (args : VpcArgs.t)
| InternetGatewayDecl (name : string) (args : InternetGatewayArgs.t)
| SubnetDecl (name : string) (args : SubnetArgs.t)
| RouteTableDecl (name : string) (args : RouteTableArgs.t)
| RouteTableAssociationDecl (name : string) (args : RouteTableAssociationArgs.t)
| SecurityGroupDecl (name : string) (args : SecurityGroupArgs.t)
| KeyPairDecl (name : string) (args : KeyPairArgs.t)
| InstanceDecl (name : string) (args : InstanceArgs.t).

Definition handle_of (r : Resource) : Handle :=
  match r with
  | VpcDecl n _ => {| h_type := TVpc; h_name := n |}
  | InternetGatewayDecl n _ => {| h_type := TInternetGateway; h_name := n |}
  | SubnetDecl n _ => {| h_type := TSubnet; h_name := n |}
  | RouteTableDecl n _ => {| h_type := TRouteTable; h_name := n |}
  | RouteTableAssociationDecl n _ => {| h_type := TRouteTableAssociation; h_name := n |}
  | SecurityGroupDecl n _ => {| h_type := TSecurityGroup; h_name := n |}
  | KeyPairDecl n _ => {| h_type := TKeyPair; h_name := n |}
  | InstanceDecl n _ => {| h_type := TInstance; h_name := n |}
  end.

(** The attributes the script reads off its resources. *)
Module attr.
Definition id (r : Handle) : Output := Attr r "id".
Definition public_ip (r : Handle) : Output := Attr r "public_ip".
Definition key_name (r : Handle) : Output := Attr r "key_name".
End attr.

(** ** The run: registered resources, stack outputs, files opened *)

Record State : Type := {
  resources : list Resource;          (* in registration order *)
  exports : gmap string Output;       (* the stack's output dictionary *)
  opened : list string }.             (* every path given to open(), in order *)

Definition initial : State :=
  {| resources := []; exports := ∅; opened := [] |}.

Definition M (A : Type) : Type := State -> State * (exn + A).

Definition ret {A : Type} (a : A) : M A := fun st => (st, inr a).

Definition raise {A : Type} (e : exn) : M A := fun st => (st, inl e).

Definition bind {A B : Type} (c : M A) (k : A -> M B) : M B :=
  fun st =>
    match c st with
    | (st', inl e) => (st', inl e)
    | (st', inr a) => k a st'
    end.

Notation "'let*' x ':=' c 'in' k" := (bind c (fun x => k))
  (at level 10, x name, c at level 100, k at level 200).

Definition register (r : Resource) : M Handle :=
  fun st =>
    ({| resources := resources st ++ [r];
        exports := exports st;
        opened := opened st |},
     inr (handle_of r)).

Module ec2.
Definition Vpc (name : string) (args : VpcArgs.t) : M Handle :=
  register (VpcDecl name args).
Definition InternetGateway (name : string) (args : InternetGatewayArgs.t) : M Handle :=
  register (InternetGatewayDecl name args).
Definition Subnet (name : string) (args : SubnetArgs.t) : M Handle :=
  register (SubnetDecl name args).
Definition RouteTable (name : string) (args : RouteTableArgs.t) : M Handle :=
  register (RouteTableDecl name args).
Definition RouteTableAssociation (name : string) (args : RouteTableAssociationArgs.t) : M Handle :=
  register (RouteTableAssociationDecl name args).
Definition SecurityGroup (name : string) (args : SecurityGroupArgs.t) : M Handle :=
  register (SecurityGroupDecl name args).
Definition KeyPair (name : string) (args : KeyPairArgs.t) : M Handle :=
  register (KeyPairDecl name args).
Definition Instance (name : string) (args : InstanceArgs.t) : M Handle :=
  register (InstanceDecl name args).
End ec2.

Module pulumi.
(** [pulumi.export(name, value)]: assignment into the output dictionary. *)
Definition export (name : string) (value : Output) : M unit :=
  fun st =>
    ({| resources := resources st;
        exports := <[name := value]> (exports st);
        opened := opened st |},
     inr tt).
End pulumi.

(** ** The environment of a run *)

(** The ambient provider credentials and configuration: the variables the
    AWS provider reads from the process environment and the stack
    configuration (access keys, region, profile). *)
Abbreviation Credentials := (gmap string string).

(** The AWS side of [get_availability_zones()].  The provider answers an
    invoke from the credentials and configuration it is given; the answer
    is the list [names] of the result, or the invoke fails. *)
Record Provider : Type := {
  describe_availability_zones : Credentials -> exn + list string }.

Record Env : Type := {
  cwd : string;                       (* the working directory of the process *)
  getcwd_error : option exn;          (* the error os.getcwd() raises instead, if any *)
  files : string -> exn + string;     (* path -> characters of the file, or the error of open()/read() *)
  credentials : Credentials }.

(** ** Library calls of the script *)

Module os.
(** [os.getcwd()]: the working directory, or the error of the system call
    (ENOENT when the directory has been removed under the process). *)
Definition getcwd (env : Env) : M string :=
  match getcwd_error env with
  | Some e => raise e
  | None => ret (cwd env)
  end.

Module path.
Definition startswith_sep (s : string) : bool :=
  match s with
  | String c _ => Ascii.eqb c "/"
  | EmptyString => false
  end.

Fixpoint endswith_sep (s : string) : bool :=
  match s with
  | EmptyString => false
  | String c EmptyString => Ascii.eqb c "/"
  | String _ s' => endswith_sep s'
  end.

Definition is_empty (s : string) : bool :=
  match s with
  | EmptyString => true
  | String _ _ => false
  end.

(** [posixpath.join(a, b)]: an absolute [b] replaces [a]; otherwise [b] is
    appended, with a separator unless [a] is empty or already ends in one. *)
Definition join (a b : string) : string :=
  if startswith_sep b then b
  else if is_empty a || endswith_sep a then a +:+ b
  else a +:+ ("/" +:+ b).
End path.
End os.

Definition CR : ascii := Ascii.ascii_of_nat 13.
Definition LF : ascii := Ascii.ascii_of_nat 10.

(** Text-mode reading ([open(p)] with the default [newline=None]) turns
    every "\r\n" and every remaining "\r" into "\n". *)
Fixpoint universal_newlines (s : string) : string :=
  match s with
  | EmptyString => EmptyString
  | String c s' =>
      if Ascii.eqb c CR then
        match s' with
        | String c' s'' =>
            if Ascii.eqb c' LF then String LF (universal_newlines s'')
            else String LF (universal_newlines s')
        | EmptyString => String LF EmptyString
        end
      else String c (universal_newlines s')
  end.

(** [open(path).read()]: the path is opened once; an error of the file
    system is raised as it is, otherwise the text of the file is returned. *)
Definition open_read (env : Env) (path : string) : M string :=
  fun st =>
    let st' := {| resources := resources st;
                  exports := exports st;
                  opened := opened st ++ [path] |} in
    match files env path with
    | inl e => (st', inl e)
    | inr contents => (st', inr (universal_newlines contents))
    end.

(** [get_availability_zones().names] *)
Definition get_availability_zones (aws : Provider) (env : Env) : M (list string) :=
  match describe_availability_zones aws (credentials env) with
  | inl e => raise e
  | inr names => ret names
  end.

(** [l[i]] for a non-negative constant [i]. *)
Definition getitem (l : list string) (i : nat) : M string :=
  match l !! i with
  | Some x => ret x
  | None => raise IndexError
  end.

(** ** The script *)

Definition program (aws : Provider) (env : Env) : M unit :=
  let* vpc := ec2.Vpc "my-vpc"
    {| VpcArgs.cidr_block := "10.0.0.0/16";
       VpcArgs.enable_dns_hostnames := true;
       VpcArgs.enable_dns_support := true;
       VpcArgs.tags := {[ "Name" := "my-vpc" ]} |} in
  let* igw := ec2.InternetGateway "my-igw"
    {| InternetGatewayArgs.vpc_id := attr.id vpc;
       InternetGatewayArgs.tags := {[ "Name" := "my-igw" ]} |} in
  let* names := get_availability_zones aws env in
  let* zone := getitem names 0 in
  let* public_subnet := ec2.Subnet "public-subnet"
    {| SubnetArgs.vpc_id := attr.id vpc;
       SubnetArgs.cidr_block := "10.0.1.0/24";
       SubnetArgs.map_public_ip_on_launch := true;
       SubnetArgs.availability_zone := zone;
       SubnetArgs.tags := {[ "Name" := "public-subnet" ]} |} in
  let* route_table := ec2.RouteTable "public-route-table"
    {| RouteTableArgs.vpc_id := attr.id vpc;
       RouteTableArgs.routes :=
         [ {| RouteTableRouteArgs.cidr_block := "0.0.0.0/0";
              RouteTableRouteArgs.gateway_id := attr.id igw |} ];
       RouteTableArgs.tags := {[ "Name" := "public-route-table" ]} |} in
  let* route_table_association :=
    ec2.RouteTableAssociation "public-route-table-association"
    {| RouteTableAssociationArgs.subnet_id := attr.id public_subnet;
       RouteTableAssociationArgs.route_table_id := attr.id route_table |} in
  let* ssh_security_group := ec2.SecurityGroup "ssh-security-group"
    {| SecurityGroupArgs.description := "Allow SSH access";
       SecurityGroupArgs.vpc_id := attr.id vpc;
       SecurityGroupArgs.ingress :=
         [ {| SecurityGroupIngressArgs.description := "SSH from anywhere";
              SecurityGroupIngressArgs.from_port := 22;
              SecurityGroupIngressArgs.to_port := 22;
              SecurityGroupIngressArgs.protocol := "tcp";
              SecurityGroupIngressArgs.cidr_blocks := ["0.0.0.0/0"] |} ];
       SecurityGroupArgs.egress :=
         [ {| SecurityGroupEgressArgs.from_port := 0;
              SecurityGroupEgressArgs.to_port := 0;
              SecurityGroupEgressArgs.protocol := "-1";
              SecurityGroupEgressArgs.cidr_blocks := ["0.0.0.0/0"] |} ];
       SecurityGroupArgs.tags := {[ "Name" := "ssh-security-group" ]} |} in
  let* current_dir := os.getcwd env in
  let* key_text := open_read env (os.path.join current_dir "id_rsa_pulumi.pub") in
  let* key_pair := ec2.KeyPair "my-key-pair"
    {| KeyPairArgs.key_name := "my-key-pair";
       KeyPairArgs.public_key := key_text |} in
  let* instance := ec2.Instance "my-instance"
    {| InstanceArgs.instance_type := "t2.micro";
       InstanceArgs.ami := "ami-060e277c0d4cce553";
       InstanceArgs.subnet_id := attr.id public_subnet;
       InstanceArgs.vpc_security_group_ids := [attr.id ssh_security_group];
       InstanceArgs.key_name := attr.key_name key_pair;
       InstanceArgs.tags := {[ "Name" := "my-instance" ]} |} in
  let* _ := pulumi.export "instance_public_ip" (attr.public_ip instance) in
  pulumi.export "ssh_command"
    (Output.concat [ Known "ssh -i "; Known current_dir;
                     Known "/id_rsa_pulumi ubuntu@"; attr.public_ip instance ]).

(** One run of the script from an empty stack. *)
Definition run (aws : Provider) (env : Env) : State * (exn + unit) :=
  program aws env initial.

Definition final (aws : Provider) (env : Env) : State := fst (run aws env).
Definition outcome (aws : Provider) (env : Env) : exn + unit := snd (run aws env).

(** The path the script opens, and the identity file it names in the
    exported command (the text between "ssh -i " and " ubuntu@"). *)
Definition key_path (env : Env) : string :=
  os.path.join (cwd env) "id_rsa_pulumi.pub".

Definition identity_file (env : Env) : string :=
  cwd env +:+ "/id_rsa_pulumi".


Fixpoint has_cr (s : string) : bool :=
  match s with
  | EmptyString => false
  | String c s' => Ascii.eqb c CR || has_cr s'
  end.

(** ** IPv4 CIDR blocks, as 32-bit integers *)

Definition digit_value (c : ascii) : option Z :=
  let n := Z.of_nat (nat_of_ascii c) in
  if (48 <=? n) && (n <=? 57) then Some (n - 48) else None.

Fixpoint decimal_from (acc : Z) (s : string) : option Z :=
  match s with
  | EmptyString => Some acc
  | String c s' =>
      match digit_value c with
      | Some d => decimal_from (10 * acc + d) s'
      | None => None
      end
  end.

Definition decimal (s : string) : option Z :=
  match s with
  | EmptyString => None
  | String _ _ => decimal_from 0 s
  end.

Fixpoint split_on (sep : ascii) (s : string) : list string :=
  match s with
  | EmptyString => [EmptyString]
  | String c s' =>
      if Ascii.eqb c sep then EmptyString :: split_on sep s'
      else
        match split_on sep s' with
        | w :: ws => String c w :: ws
        | [] => [String c EmptyString]
        end
  end.

Definition octet (s : string) : option Z :=
  match decimal s with
  | Some n => if n <=? 255 then Some n else None
  | None => None
  end.

Definition parse_ipv4 (s : string) : option Z :=
  match split_on "." s with
  | [a; b; c; d] =>
      match octet a, octet b, octet c, octet d with
      | Some a, Some b, Some c, Some d =>
          Some (Z.lor (Z.shiftl a 24)
                  (Z.lor (Z.shiftl b 16) (Z.lor (Z.shiftl c 8) d)))
      | _, _, _, _ => None
      end
  | _ => None
  end.

Record Cidr : Type := { network : Z; prefix : Z }.

Definition parse_cidr (s : string) : option Cidr :=
  match split_on "/" s with
  | [ip; len] =>
      match parse_ipv4 ip, decimal len with
      | Some a, Some p =>
          if p <=? 32 then Some {| network := a; prefix := p |} else None
      | _, _ => None
      end
  | _ => None
  end.

Definition all_ones : Z := 4294967295.

(** The mask of a prefix of [p] bits: [p] ones followed by [32 - p] zeros. *)
Definition netmask (p : Z) : Z := Z.land (Z.shiftl all_ones (32 - p)) all_ones.

(** An address lies in a block when it agrees with the block's network
    address on the masked bits. *)
Definition cidr_member (a : Z) (c : Cidr) : bool :=
  Z.land a (netmask (prefix c)) =? Z.land (network c) (netmask (prefix c)).

(** ** Sample environments *)

Definition sample_aws : Provider :=
  {| describe_availability_zones := fun _ => inr ["us-east-1a"; "us-east-1b"] |}.

Definition sample_key : string := "ssh-rsa AAAAB3NzaC1yc2E demo@host".

Definition one_file (path text : string) : string -> exn + string :=
  fun p => if String.eqb p path then inr text else inl (OSError 2 p).

Definition sample_env : Env :=
  {| cwd := "/home/ubuntu/infra";
     getcwd_error := None;
     files := one_file "/home/ubuntu/infra/id_rsa_pulumi.pub"
                (sample_key +:+ String LF EmptyString);
     credentials := {[ "AWS_REGION" := "us-east-1" ]} |}.


(** The script started in the root directory. *)
Definition root_env : Env :=
  {| cwd := "/";
     getcwd_error := None;
     files := one_file "/id_rsa_pulumi.pub" (sample_key +:+ String LF EmptyString);
     credentials := {[ "AWS_REGION" := "us-east-1" ]} |}.

(** A key file with a DOS line ending. *)
Definition crlf_env : Env :=
  {| cwd := "/home/ubuntu/infra";
     getcwd_error := None;
     files := one_file "/home/ubuntu/infra/id_rsa_pulumi.pub"
                (sample_key +:+ String CR (String LF EmptyString));
     credentials := {[ "AWS_REGION" := "us-east-1" ]} |}.

(** No key file in the working directory. *)
Definition keyless_env : Env :=
  {| cwd := "/home/ubuntu/infra";
     getcwd_error := None;
     files := fun p => inl (OSError 2 p);
     credentials := {[ "AWS_REGION" := "us-east-1" ]} |}.

Definition sample_engine : Engine :=
  fun r a => if String.eqb a "public_ip" then "203.0.113.7" else h_name r.

Definition failing_aws : Provider :=
  {| describe_availability_zones :=
       fun _ => inl (InvokeError "no valid credential sources found") |}.

Definition zoneless_aws : Provider :=
  {| describe_availability_zones := fun _ => inr [] |}.



(** The working directory was removed under the process: [os.getcwd()]
    raises FileNotFoundError. *)
Definition gone_env : Env :=
  {| cwd := "/home/ubuntu/infra";
     getcwd_error := Some (OSError 2 EmptyString);
     files := fun p => inl (OSError 2 p);
     credentials := {[ "AWS_REGION" := "us-east-1" ]} |}.

(** ** References between resources *)

#[global] Instance ResourceType_eq_dec : EqDecision ResourceType.
Proof. solve_decision. Defined.

#[global] Instance Handle_eq_dec : EqDecision Handle.
Proof. solve_decision. Defined.

(** The resources whose attributes an output is computed from. *)
Fixpoint output_refs (o : Output) : list Handle :=
  match o with
  | Known _ => []
  | Attr r _ => [r]
  | Concat parts =>
      (fix collect (l : list Output) : list Handle :=
         match l with
         | [] => []
         | p :: l' => output_refs p ++ collect l'
         end) parts
  end.

(** The resources a description refers to through its arguments. *)
Definition references (r : Resource) : list Handle :=
  match r with
  | VpcDecl _ _ => []
  | InternetGatewayDecl _ a => output_refs (InternetGatewayArgs.vpc_id a)
  | SubnetDecl _ a => output_refs (SubnetArgs.vpc_id a)
  | RouteTableDecl _ a =>
      output_refs (RouteTableArgs.vpc_id a)
      ++ flat_map (fun route => output_refs (RouteTableRouteArgs.gateway_id route))
           (RouteTableArgs.routes a)
  | RouteTableAssociationDecl _ a =>
      output_refs (RouteTableAssociationArgs.subnet_id a)
      ++ output_refs (RouteTableAssociationArgs.route_table_id a)
  | SecurityGroupDecl _ a => output_refs (SecurityGroupArgs.vpc_id a)
  | KeyPairDecl _ _ => []
  | InstanceDecl _ a =>
      output_refs (InstanceArgs.subnet_id a)
      ++ flat_map output_refs (InstanceArgs.vpc_security_group_ids a)
      ++ output_refs (InstanceArgs.key_name a)
  end.

Definition registered_in (seen : list Handle) (h : Handle) : bool :=
  existsb (fun h' => bool_decide (h = h')) seen.

(** Every description refers only to resources registered before it,
    [seen] being the handles registered before the list starts. *)
Fixpoint backward_closed (seen : list Handle) (l : list Resource) : bool :=
  match l with
  | [] => true
  | r :: l' =>
      forallb (registered_in seen) (references r)
      && backward_closed (seen ++ [handle_of r]) l'
  end.

(** The [tags] argument of a description, for the resources that take one
    in the script. *)
Definition tags_of (r : Resource) : option (gmap string string) :=
  match r with
  | VpcDecl _ a => Some (VpcArgs.tags a)
  | InternetGatewayDecl _ a => Some (InternetGatewayArgs.tags a)
  | SubnetDecl _ a => Some (SubnetArgs.tags a)
  | RouteTableDecl _ a => Some (RouteTableArgs.tags a)
  | RouteTableAssociationDecl _ _ => None
  | SecurityGroupDecl _ a => Some (SecurityGroupArgs.tags a)
  | KeyPairDecl _ _ => None
  | InstanceDecl _ a => Some (InstanceArgs.tags a)
  end.

(** ** Strings and paths *)

Lemma append_cons (c : ascii) (s t : string) :
  String c s +:+ t = String c (s +:+ t).
Proof. reflexivity. Qed.

Lemma append_nil_r (s : string) : s +:+ EmptyString = s.
Proof.
  induction s as [|c s IH]; [reflexivity|].
  now rewrite append_cons, IH.
Qed.

Lemma append_length (a b : string) :
  String.length (a +:+ b) = (String.length a + String.length b)%nat.
Proof.
  induction a as [|c a IH]; [reflexivity|].
  rewrite append_cons. simpl. now rewrite IH.
Qed.

Lemma append_assoc (a b c : string) : (a +:+ b) +:+ c = a +:+ (b +:+ c).
Proof.
  induction a as [|x a IH]; [reflexivity|].
  now rewrite !append_cons, IH.
Qed.







(** Text without a carriage return is read as it is. *)
Lemma universal_newlines_no_cr (s : string) :
  has_cr s = false -> universal_newlines s = s.
Proof.
  induction s as [|c s IH]; simpl; intros H; [reflexivity|].
  apply orb_false_iff in H as [Hc Hs].
  rewrite Hc. now rewrite IH.
Qed.

(** ** Case analysis of a run

    A run stops at the availability-zone lookup, at [names[0]], at
    [os.getcwd()], at the read of the key file, or it completes. *)

Ltac run_unfold :=
  cbv [final outcome run program bind ret raise register
       ec2.Vpc ec2.InternetGateway ec2.Subnet ec2.RouteTable
       ec2.RouteTableAssociation ec2.SecurityGroup ec2.KeyPair ec2.Instance
       pulumi.export open_read get_availability_zones getitem initial
       key_path identity_file os.getcwd Output.concat
       attr.id attr.public_ip attr.key_name] in *.

Ltac run_cases aws env :=
  run_unfold;
  destruct (describe_availability_zones aws (credentials env))
    as [?err | [ | ?zone ?names]] eqn:?Hzones;
  simpl in *;
  [ | | destruct (getcwd_error env) as [?err | ] eqn:?Hcwd; simpl in *;
        [ | destruct (files env (os.path.join (cwd env) "id_rsa_pulumi.pub"))
              as [?err | ?contents] eqn:?Hfile; simpl in * ] ].

Ltac pick H :=
  repeat (destruct H as [H | H]; [try discriminate H | ]);
  try contradiction H.

(** ** The exported command *)

(** C1: whenever the output "ssh_command" is exported, it resolves to
    "ssh -i " + current_dir + "/id_rsa_pulumi ubuntu@" + the public IP the
    engine gives the declared instance, for every working directory and
    every engine assignment. *)
Theorem C1_ssh_command_concat (aws : Provider) (env : Env) (o : Output) :
  exports (final aws env) !! "ssh_command" = Some o ->
  exists name args,
    In (InstanceDecl name args) (resources (final aws env)) /\
    forall eng : Engine,
      resolve eng o =
      "ssh -i " +:+ cwd env +:+ "/id_rsa_pulumi ubuntu@"
        +:+ eng (handle_of (InstanceDecl name args)) "public_ip".
Proof.
  intros H. run_cases aws env; try (rewrite lookup_empty in H; discriminate H).
  rewrite lookup_insert_eq in H. injection H as <-.
  eexists _, _. split.
  - do 7 right. left. reflexivity.
  - intros eng. simpl. now rewrite append_nil_r.
Qed.

Lemma C1_ssh_command_concat_witness :
  exists o,
    exports (final sample_aws sample_env) !! "ssh_command" = Some o /\
    exists name args,
      In (InstanceDecl name args) (resources (final sample_aws sample_env)) /\
      forall eng : Engine,
        resolve eng o =
        "ssh -i " +:+ cwd sample_env +:+ "/id_rsa_pulumi ubuntu@"
          +:+ eng (handle_of (InstanceDecl name args)) "public_ip".
Proof.
  eexists. split.
  - vm_compute. reflexivity.
  - apply C1_ssh_command_concat. vm_compute. reflexivity.
Defined.

(** ** The key pair *)

(** C2 as stated fails on a key file with a carriage return: the file ends
    in "\r\n", the declared public key ends in "\n". *)
Lemma C2_counterexample_crlf :
  exists name args contents,
    In (KeyPairDecl name args) (resources (final sample_aws crlf_env)) /\
    files crlf_env (key_path crlf_env) = inr contents /\
    KeyPairArgs.public_key args <> contents.
Proof.
  exists "my-key-pair",
    {| KeyPairArgs.key_name := "my-key-pair";
       KeyPairArgs.public_key := sample_key +:+ String LF EmptyString |},
    (sample_key +:+ String CR (String LF EmptyString)).
  split; [vm_compute; do 6 right; left; reflexivity|].
  split; [vm_compute; reflexivity|].
  apply String.eqb_neq. vm_compute. reflexivity.
Qed.

(** C2, amended: the public key of the declared key pair is the text of
    the file at [os.path.join(current_dir, "id_rsa_pulumi.pub")] as a
    text-mode read returns it, that is with "\r\n" and "\r" turned into
    "\n"; for a file without carriage returns it equals the contents
    character for character. *)
Theorem C2_public_key_is_file_text
    (aws : Provider) (env : Env) (name : string) (args : KeyPairArgs.t) :
  In (KeyPairDecl name args) (resources (final aws env)) ->
  exists contents,
    files env (key_path env) = inr contents /\
    KeyPairArgs.public_key args = universal_newlines contents /\
    (has_cr contents = false -> KeyPairArgs.public_key args = contents).
Proof.
  intros H. run_cases aws env; pick H.
  injection H as <- <-. exists contents. simpl.
  split; [reflexivity|]. split; [reflexivity|].
  apply universal_newlines_no_cr.
Qed.

Lemma C2_public_key_is_file_text_witness :
  exists args,
    In (KeyPairDecl "my-key-pair" args) (resources (final sample_aws sample_env)) /\
    exists contents,
      files sample_env (key_path sample_env) = inr contents /\
      KeyPairArgs.public_key args = universal_newlines contents /\
      (has_cr contents = false -> KeyPairArgs.public_key args = contents).
Proof.
  eexists.
  refine ((fun H => conj H (C2_public_key_is_file_text sample_aws sample_env _ _ H)) _).
  vm_compute. do 6 right. left. reflexivity.
Defined.

(** ** Routing and firewall *)

(** C3: a declared route table is the one named "public-route-table"; it
    has exactly one route, to "0.0.0.0/0", through the id of the declared
    internet gateway. *)
Theorem C3_route_table_single_default_route
    (aws : Provider) (env : Env) (name : string) (args : RouteTableArgs.t) :
  In (RouteTableDecl name args) (resources (final aws env)) ->
  name = "public-route-table" /\
  exists gw_name gw_args,
    In (InternetGatewayDecl gw_name gw_args) (resources (final aws env)) /\
    RouteTableArgs.routes args =
      [ {| RouteTableRouteArgs.cidr_block := "0.0.0.0/0";
           RouteTableRouteArgs.gateway_id :=
             attr.id (handle_of (InternetGatewayDecl gw_name gw_args)) |} ].
Proof.
  intros H.
  run_cases aws env; pick H; injection H as <- <-;
    (split; [reflexivity|]; eexists _, _;
     split; [right; left; reflexivity | reflexivity]).
Qed.

Lemma C3_route_table_single_default_route_witness :
  exists args,
    In (RouteTableDecl "public-route-table" args)
       (resources (final sample_aws sample_env)) /\
    ("public-route-table" = "public-route-table" /\
     exists gw_name gw_args,
       In (InternetGatewayDecl gw_name gw_args)
          (resources (final sample_aws sample_env)) /\
       RouteTableArgs.routes args =
         [ {| RouteTableRouteArgs.cidr_block := "0.0.0.0/0";
              RouteTableRouteArgs.gateway_id :=
                attr.id (handle_of (InternetGatewayDecl gw_name gw_args)) |} ]).
Proof.
  eexists.
  refine ((fun H => conj H
             (C3_route_table_single_default_route sample_aws sample_env _ _ H)) _).
  vm_compute. do 3 right. left. reflexivity.
Defined.

(** C4: a declared security group has an ingress rule for TCP from port 22
    to port 22 from "0.0.0.0/0", and an egress rule for protocol "-1" with
    ports 0 to "0.0.0.0/0". *)
Theorem C4_security_group_rules
    (aws : Provider) (env : Env) (name : string) (args : SecurityGroupArgs.t) :
  In (SecurityGroupDecl name args) (resources (final aws env)) ->
  (exists rule,
     In rule (SecurityGroupArgs.ingress args) /\
     SecurityGroupIngressArgs.protocol rule = "tcp" /\
     SecurityGroupIngressArgs.from_port rule = 22 /\
     SecurityGroupIngressArgs.to_port rule = 22 /\
     SecurityGroupIngressArgs.cidr_blocks rule = ["0.0.0.0/0"]) /\
  (exists rule,
     In rule (SecurityGroupArgs.egress args) /\
     SecurityGroupEgressArgs.protocol rule = "-1" /\
     SecurityGroupEgressArgs.from_port rule = 0 /\
     SecurityGroupEgressArgs.to_port rule = 0 /\
     SecurityGroupEgressArgs.cidr_blocks rule = ["0.0.0.0/0"]).
Proof.
  intros H.
  run_cases aws env; pick H; injection H as <- <-;
    (split; eexists; (split; [left; reflexivity|]); repeat split).
Qed.

Lemma C4_security_group_rules_witness :
  exists args,
    In (SecurityGroupDecl "ssh-security-group" args)
       (resources (final sample_aws keyless_env)) /\
    (exists rule,
       In rule (SecurityGroupArgs.ingress args) /\
       SecurityGroupIngressArgs.protocol rule = "tcp" /\
       SecurityGroupIngressArgs.from_port rule = 22 /\
       SecurityGroupIngressArgs.to_port rule = 22 /\
       SecurityGroupIngressArgs.cidr_blocks rule = ["0.0.0.0/0"]) /\
    (exists rule,
       In rule (SecurityGroupArgs.egress args) /\
       SecurityGroupEgressArgs.protocol rule = "-1" /\
       SecurityGroupEgressArgs.from_port rule = 0 /\
       SecurityGroupEgressArgs.to_port rule = 0 /\
       SecurityGroupEgressArgs.cidr_blocks rule = ["0.0.0.0/0"]).
Proof.
  eexists.
  refine ((fun H => conj H (C4_security_group_rules sample_aws keyless_env _ _ H)) _).
  vm_compute. do 5 right. left. reflexivity.
Defined.

(** ** Outputs and resources of a completed run *)

(** C5: a completed run exports exactly two outputs: "instance_public_ip",
    bound to the public IP of the declared instance, and "ssh_command",
    bound to the concatenation of the command's four parts. *)
Theorem C5_exactly_two_outputs (aws : Provider) (env : Env) :
  outcome aws env = inr tt ->
  exists name args,
    In (InstanceDecl name args) (resources (final aws env)) /\
    exports (final aws env) !! "instance_public_ip"
      = Some (attr.public_ip (handle_of (InstanceDecl name args))) /\
    exports (final aws env) !! "ssh_command"
      = Some (Output.concat
                [ Known "ssh -i "; Known (cwd env);
                  Known "/id_rsa_pulumi ubuntu@";
                  attr.public_ip (handle_of (InstanceDecl name args)) ]) /\
    dom (exports (final aws env)) = {[ "instance_public_ip"; "ssh_command" ]} /\
    size (exports (final aws env)) = 2%nat.
Proof.
  intros H. run_cases aws env; try discriminate H.
  eexists _, _. split; [do 7 right; left; reflexivity|].
  split; [now rewrite lookup_insert_ne, lookup_insert_eq|].
  split; [now rewrite lookup_insert_eq|].
  split.
  - rewrite !dom_insert_L, dom_empty_L. set_solver.
  - rewrite !map_size_insert_None, map_size_empty; [reflexivity | | ].
    + apply lookup_empty.
    + rewrite lookup_insert_ne; [apply lookup_empty | discriminate].
Qed.

Lemma C5_exactly_two_outputs_witness :
  outcome sample_aws sample_env = inr tt /\
  exists name args,
    In (InstanceDecl name args) (resources (final sample_aws sample_env)) /\
    exports (final sample_aws sample_env) !! "instance_public_ip"
      = Some (attr.public_ip (handle_of (InstanceDecl name args))) /\
    exports (final sample_aws sample_env) !! "ssh_command"
      = Some (Output.concat
                [ Known "ssh -i "; Known (cwd sample_env);
                  Known "/id_rsa_pulumi ubuntu@";
                  attr.public_ip (handle_of (InstanceDecl name args)) ]) /\
    dom (exports (final sample_aws sample_env))
      = {[ "instance_public_ip"; "ssh_command" ]} /\
    size (exports (final sample_aws sample_env)) = 2%nat.
Proof.
  refine ((fun H => conj H (C5_exactly_two_outputs sample_aws sample_env H)) _).
  vm_compute. reflexivity.
Defined.

(** C6: a completed run has registered exactly eight resources, in the
    order VPC, internet gateway, subnet, route table, association,
    security group, key pair, instance, and each reference is the
    attribute of the resource it points to. *)
Theorem C6_eight_resources_linked (aws : Provider) (env : Env) :
  outcome aws env = inr tt ->
  exists vpc igw subnet table assoc group key inst,
    let vpc_r := VpcDecl "my-vpc" vpc in
    let igw_r := InternetGatewayDecl "my-igw" igw in
    let subnet_r := SubnetDecl "public-subnet" subnet in
    let table_r := RouteTableDecl "public-route-table" table in
    let assoc_r := RouteTableAssociationDecl "public-route-table-association" assoc in
    let group_r := SecurityGroupDecl "ssh-security-group" group in
    let key_r := KeyPairDecl "my-key-pair" key in
    let inst_r := InstanceDecl "my-instance" inst in
    resources (final aws env)
      = [vpc_r; igw_r; subnet_r; table_r; assoc_r; group_r; key_r; inst_r] /\
    SubnetArgs.vpc_id subnet = attr.id (handle_of vpc_r) /\
    InternetGatewayArgs.vpc_id igw = attr.id (handle_of vpc_r) /\
    RouteTableArgs.vpc_id table = attr.id (handle_of vpc_r) /\
    SecurityGroupArgs.vpc_id group = attr.id (handle_of vpc_r) /\
    RouteTableAssociationArgs.subnet_id assoc = attr.id (handle_of subnet_r) /\
    RouteTableAssociationArgs.route_table_id assoc = attr.id (handle_of table_r) /\
    InstanceArgs.subnet_id inst = attr.id (handle_of subnet_r) /\
    InstanceArgs.vpc_security_group_ids inst = [attr.id (handle_of group_r)] /\
    InstanceArgs.key_name inst = attr.key_name (handle_of key_r).
Proof.
  intros H. run_cases aws env; try discriminate H.
  eexists _, _, _, _, _, _, _, _. cbv zeta.
  split; [reflexivity|]. repeat split.
Qed.

Lemma C6_eight_resources_linked_witness :
  outcome sample_aws sample_env = inr tt /\
  length (resources (final sample_aws sample_env)) = 8%nat.
Proof.
  refine ((fun H => conj H _) _).
  - destruct (C6_eight_resources_linked sample_aws sample_env H)
      as (v & g & s & t & a & sg & k & i & E & _).
    rewrite E. reflexivity.
  - vm_compute. reflexivity.
Defined.

(** ** Failure of the key read *)

(** C7: when the run reaches the read of the key file (an availability
    zone was returned and [os.getcwd()] succeeded) and the read fails with
    [e], the run ends with [e] itself; the file was opened once; the six
    resources before the key pair are the only ones registered, so neither
    the key pair nor the instance is; and nothing is exported. *)
Theorem C7_key_read_failure_aborts
    (aws : Provider) (env : Env) (zone : string) (names : list string) (e : exn) :
  describe_availability_zones aws (credentials env) = inr (zone :: names) ->
  getcwd_error env = None ->
  files env (key_path env) = inl e ->
  outcome aws env = inl e /\
  opened (final aws env) = [key_path env] /\
  exports (final aws env) = ∅ /\
  (exists vpc igw subnet table assoc group,
     resources (final aws env)
       = [ VpcDecl "my-vpc" vpc; InternetGatewayDecl "my-igw" igw;
           SubnetDecl "public-subnet" subnet;
           RouteTableDecl "public-route-table" table;
           RouteTableAssociationDecl "public-route-table-association" assoc;
           SecurityGroupDecl "ssh-security-group" group ]) /\
  (forall r, In r (resources (final aws env)) ->
     h_type (handle_of r) <> TKeyPair /\ h_type (handle_of r) <> TInstance).
Proof.
  intros Hz Hg Hf. run_unfold. rewrite Hz. simpl. rewrite Hg. simpl.
  rewrite Hf. simpl.
  repeat split; try reflexivity.
  - eexists _, _, _, _, _, _. reflexivity.
  - pick H; subst r; discriminate.
  - pick H; subst r; discriminate.
Qed.

Lemma C7_key_read_failure_aborts_witness :
  outcome sample_aws keyless_env
    = inl (OSError 2 "/home/ubuntu/infra/id_rsa_pulumi.pub") /\
  opened (final sample_aws keyless_env) = [key_path keyless_env] /\
  exports (final sample_aws keyless_env) = ∅ /\
  (exists vpc igw subnet table assoc group,
     resources (final sample_aws keyless_env)
       = [ VpcDecl "my-vpc" vpc; InternetGatewayDecl "my-igw" igw;
           SubnetDecl "public-subnet" subnet;
           RouteTableDecl "public-route-table" table;
           RouteTableAssociationDecl "public-route-table-association" assoc;
           SecurityGroupDecl "ssh-security-group" group ]) /\
  (forall r, In r (resources (final sample_aws keyless_env)) ->
     h_type (handle_of r) <> TKeyPair /\ h_type (handle_of r) <> TInstance).
Proof.
  apply (C7_key_read_failure_aborts sample_aws keyless_env
           "us-east-1a" ["us-east-1b"]).
  - reflexivity.
  - reflexivity.
  - vm_compute. reflexivity.
Defined.

(** ** What a run depends on *)




(** ** Address blocks *)

Lemma block_10_0_1_in_10_0 (a : Z) :
  cidr_member a {| network := 167772416; prefix := 24 |} = true ->
  cidr_member a {| network := 167772160; prefix := 16 |} = true.
Proof.
  unfold cidr_member. simpl.
  change (netmask 24) with 4294967040. change (netmask 16) with 4294901760.
  intros H. apply Z.eqb_eq in H. apply Z.eqb_eq.
  change 4294901760 with (Z.land 4294967040 4294901760) at 1.
  rewrite Z.land_assoc, H. reflexivity.
Qed.

(** C9: the CIDR block of the declared subnet parses to 10.0.1.0/24, the
    block of the declared VPC to 10.0.0.0/16, and every 32-bit address in
    the subnet's block is in the VPC's block. *)
Theorem C9_subnet_block_within_vpc_block
    (aws : Provider) (env : Env)
    (vpc_name : string) (vpc : VpcArgs.t)
    (subnet_name : string) (subnet : SubnetArgs.t) :
  In (VpcDecl vpc_name vpc) (resources (final aws env)) ->
  In (SubnetDecl subnet_name subnet) (resources (final aws env)) ->
  exists vpc_block subnet_block,
    parse_cidr (VpcArgs.cidr_block vpc) = Some vpc_block /\
    parse_cidr (SubnetArgs.cidr_block subnet) = Some subnet_block /\
    vpc_block = {| network := 10 * 2 ^ 24; prefix := 16 |} /\
    subnet_block = {| network := 10 * 2 ^ 24 + 1 * 2 ^ 8; prefix := 24 |} /\
    forall a : Z,
      0 <= a < 2 ^ 32 ->
      cidr_member a subnet_block = true -> cidr_member a vpc_block = true.
Proof.
  intros Hv Hs.
  run_cases aws env; pick Hs; pick Hv;
    injection Hs as <- <-; injection Hv as <- <-;
    (eexists _, _;
     split; [vm_compute; reflexivity|];
     split; [vm_compute; reflexivity|];
     split; [reflexivity|]; split; [reflexivity|];
     intros a _; apply block_10_0_1_in_10_0).
Qed.

Lemma C9_subnet_block_within_vpc_block_witness :
  exists vpc subnet,
    (In (VpcDecl "my-vpc" vpc) (resources (final sample_aws sample_env)) /\
     In (SubnetDecl "public-subnet" subnet) (resources (final sample_aws sample_env))) /\
    exists vpc_block subnet_block,
      parse_cidr (VpcArgs.cidr_block vpc) = Some vpc_block /\
      parse_cidr (SubnetArgs.cidr_block subnet) = Some subnet_block /\
      vpc_block = {| network := 10 * 2 ^ 24; prefix := 16 |} /\
      subnet_block = {| network := 10 * 2 ^ 24 + 1 * 2 ^ 8; prefix := 24 |} /\
      forall a : Z,
        0 <= a < 2 ^ 32 ->
        cidr_member a subnet_block = true -> cidr_member a vpc_block = true.
Proof.
  eexists _, _.
  refine ((fun H => conj H
             (C9_subnet_block_within_vpc_block sample_aws sample_env
                _ _ _ _ (proj1 H) (proj2 H))) _).
  split; vm_compute.
  - left. reflexivity.
  - do 2 right. left. reflexivity.
Defined.

(** ** The two paths *)

Lemma identity_file_pub (env : Env) :
  identity_file env +:+ ".pub" = cwd env +:+ "/id_rsa_pulumi.pub".
Proof. unfold identity_file. now rewrite append_assoc. Qed.

Lemma ssh_command_identity (env : Env) (ip : string) :
  "ssh -i " +:+ cwd env +:+ "/id_rsa_pulumi ubuntu@" +:+ ip
  = "ssh -i " +:+ identity_file env +:+ " ubuntu@" +:+ ip.
Proof. unfold identity_file. now rewrite append_assoc. Qed.

(** For which working directories the opened path is the identity file
    plus ".pub". *)
Lemma key_path_is_identity_pub (env : Env) :
  key_path env = identity_file env +:+ ".pub" <->
  os.path.is_empty (cwd env) = false /\
  os.path.endswith_sep (cwd env) = false.
Proof.
  rewrite identity_file_pub. unfold key_path, os.path.join. simpl.
  destruct (os.path.is_empty (cwd env)) eqn:Ha; simpl.
  - split; [|intros [? _]; discriminate].
    intros H. apply (f_equal String.length) in H.
    rewrite !append_length in H. simpl in H. lia.
  - destruct (os.path.endswith_sep (cwd env)) eqn:He.
    + split; [|intros [_ ?]; discriminate].
      intros H. apply (f_equal String.length) in H.
      rewrite !append_length in H. simpl in H. lia.
    + split; [now split | reflexivity].
Qed.

(** C10 as stated fails in the root directory: the script opens
    "/id_rsa_pulumi.pub" and exports a command naming "//id_rsa_pulumi". *)
Lemma C10_counterexample_root :
  outcome sample_aws root_env = inr tt /\
  opened (final sample_aws root_env) = ["/id_rsa_pulumi.pub"] /\
  (exists o,
     exports (final sample_aws root_env) !! "ssh_command" = Some o /\
     resolve sample_engine o
       = "ssh -i " +:+ "//id_rsa_pulumi" +:+ " ubuntu@" +:+ "203.0.113.7") /\
  "/id_rsa_pulumi.pub" <> "//id_rsa_pulumi" +:+ ".pub".
Proof.
  split; [vm_compute; reflexivity|].
  split; [vm_compute; reflexivity|].
  split.
  - eexists. split; vm_compute; reflexivity.
  - apply String.eqb_neq. vm_compute. reflexivity.
Qed.

(** C10, amended: the path that is opened is
    [os.path.join(current_dir, "id_rsa_pulumi.pub")] and the identity file
    in the exported command is [current_dir + "/id_rsa_pulumi"]; the first
    is the second plus ".pub" exactly when the working directory is not
    empty and does not end in "/", that is everywhere but in the root
    directory. *)
Theorem C10_key_path_and_identity_file
    (aws : Provider) (env : Env) (p : string) (o : Output) :
  In p (opened (final aws env)) ->
  exports (final aws env) !! "ssh_command" = Some o ->
  p = os.path.join (cwd env) "id_rsa_pulumi.pub" /\
  (exists name args,
     In (InstanceDecl name args) (resources (final aws env)) /\
     forall eng : Engine,
       resolve eng o =
       "ssh -i " +:+ identity_file env +:+ " ubuntu@"
         +:+ eng (handle_of (InstanceDecl name args)) "public_ip") /\
  (p = identity_file env +:+ ".pub" <->
   os.path.is_empty (cwd env) = false /\
   os.path.endswith_sep (cwd env) = false).
Proof.
  intros Hp Ho.
  assert (p = key_path env) as ->.
  { clear Ho. run_cases aws env; pick Hp; now subst p. }
  split; [reflexivity|]. split; [|apply key_path_is_identity_pub].
  clear Hp. run_cases aws env; try (rewrite lookup_empty in Ho; discriminate Ho).
  rewrite lookup_insert_eq in Ho. injection Ho as <-.
  eexists _, _. split; [do 7 right; left; reflexivity|].
  intros eng. simpl. rewrite append_nil_r.
  apply (ssh_command_identity env).
Qed.

Lemma C10_key_path_and_identity_file_witness :
  exists o,
    (In "/home/ubuntu/infra/id_rsa_pulumi.pub" (opened (final sample_aws sample_env)) /\
     exports (final sample_aws sample_env) !! "ssh_command" = Some o) /\
    "/home/ubuntu/infra/id_rsa_pulumi.pub"
      = os.path.join (cwd sample_env) "id_rsa_pulumi.pub" /\
    (exists name args,
       In (InstanceDecl name args) (resources (final sample_aws sample_env)) /\
       forall eng : Engine,
         resolve eng o =
         "ssh -i " +:+ identity_file sample_env +:+ " ubuntu@"
           +:+ eng (handle_of (InstanceDecl name args)) "public_ip") /\
    ("/home/ubuntu/infra/id_rsa_pulumi.pub" = identity_file sample_env +:+ ".pub" <->
     os.path.is_empty (cwd sample_env) = false /\
     os.path.endswith_sep (cwd sample_env) = false).
Proof.
  eexists.
  refine ((fun H => conj H
             (C10_key_path_and_identity_file sample_aws sample_env _ _
                (proj1 H) (proj2 H))) _).
  split; vm_compute; [left|]; reflexivity.
Defined.

(** ** Failure of the availability-zone lookup *)

(** X1: when [get_availability_zones()] raises [e], the run ends with [e];
    the VPC and the internet gateway are already registered and nothing
    else is; no file is opened and nothing is exported. *)
Theorem X1_zone_lookup_failure_aborts (aws : Provider) (env : Env) (e : exn) :
  describe_availability_zones aws (credentials env) = inl e ->
  outcome aws env = inl e /\
  opened (final aws env) = [] /\
  exports (final aws env) = ∅ /\
  exists vpc igw,
    resources (final aws env)
      = [ VpcDecl "my-vpc" vpc; InternetGatewayDecl "my-igw" igw ].
Proof.
  intros Hz. run_unfold. rewrite Hz. simpl.
  repeat split. eexists _, _. reflexivity.
Qed.

Lemma X1_zone_lookup_failure_aborts_witness :
  outcome failing_aws sample_env
    = inl (InvokeError "no valid credential sources found") /\
  opened (final failing_aws sample_env) = [] /\
  exports (final failing_aws sample_env) = ∅ /\
  exists vpc igw,
    resources (final failing_aws sample_env)
      = [ VpcDecl "my-vpc" vpc; InternetGatewayDecl "my-igw" igw ].
Proof.
  apply (X1_zone_lookup_failure_aborts failing_aws sample_env).
  reflexivity.
Defined.

(** X2: when the provider returns no availability zone, [names[0]] raises
    IndexError; the run stops there with the VPC and the gateway
    registered, no file opened and nothing exported. *)
Theorem X2_no_zone_raises_index_error (aws : Provider) (env : Env) :
  describe_availability_zones aws (credentials env) = inr [] ->
  outcome aws env = inl IndexError /\
  opened (final aws env) = [] /\
  exports (final aws env) = ∅ /\
  exists vpc igw,
    resources (final aws env)
      = [ VpcDecl "my-vpc" vpc; InternetGatewayDecl "my-igw" igw ].
Proof.
  intros Hz. run_unfold. rewrite Hz. simpl.
  repeat split. eexists _, _. reflexivity.
Qed.

Lemma X2_no_zone_raises_index_error_witness :
  outcome zoneless_aws sample_env = inl IndexError /\
  opened (final zoneless_aws sample_env) = [] /\
  exports (final zoneless_aws sample_env) = ∅ /\
  exists vpc igw,
    resources (final zoneless_aws sample_env)
      = [ VpcDecl "my-vpc" vpc; InternetGatewayDecl "my-igw" igw ].
Proof.
  apply (X2_no_zone_raises_index_error zoneless_aws sample_env).
  reflexivity.
Defined.

(** ** When a run completes *)

(** X3: a run completes exactly when the provider returns at least one
    availability zone, [os.getcwd()] does not raise and the key file can
    be read. *)
Theorem X3_run_completes_iff (aws : Provider) (env : Env) :
  outcome aws env = inr tt <->
  (exists zone names,
     describe_availability_zones aws (credentials env) = inr (zone :: names)) /\
  getcwd_error env = None /\
  (exists contents, files env (key_path env) = inr contents).
Proof.
  run_cases aws env.
  - split; [discriminate|]. intros [(z & n & H) _]. discriminate H.
  - split; [discriminate|]. intros [(z & n & H) _]. discriminate H.
  - split; [discriminate|]. intros (_ & H & _). discriminate H.
  - split; [discriminate|]. intros (_ & _ & c & H). discriminate H.
  - split; [|reflexivity]. intros _. repeat split; eauto.
Qed.

(** X4: a declared subnet is placed in the first availability zone of the
    provider's answer, whatever the other zones are. *)
Theorem X4_subnet_in_first_zone
    (aws : Provider) (env : Env) (name : string) (args : SubnetArgs.t) :
  In (SubnetDecl name args) (resources (final aws env)) ->
  exists names,
    describe_availability_zones aws (credentials env)
      = inr (SubnetArgs.availability_zone args :: names).
Proof.
  intros H. run_cases aws env; pick H; injection H as <- <-; eauto.
Qed.

Lemma X4_subnet_in_first_zone_witness :
  exists args,
    In (SubnetDecl "public-subnet" args) (resources (final sample_aws keyless_env)) /\
    exists names,
      describe_availability_zones sample_aws (credentials keyless_env)
        = inr (SubnetArgs.availability_zone args :: names).
Proof.
  eexists.
  refine ((fun H => conj H (X4_subnet_in_first_zone sample_aws keyless_env _ _ H)) _).
  vm_compute. do 2 right. left. reflexivity.
Defined.

(** X5: outputs are exported all or nothing: if any output is bound, the
    run completed and both outputs are bound. *)
Theorem X5_outputs_only_from_completed_run
    (aws : Provider) (env : Env) (k : string) (o : Output) :
  exports (final aws env) !! k = Some o ->
  outcome aws env = inr tt /\
  is_Some (exports (final aws env) !! "instance_public_ip") /\
  is_Some (exports (final aws env) !! "ssh_command").
Proof.
  intros H. run_cases aws env; try (rewrite lookup_empty in H; discriminate H).
  split; [reflexivity|]. split.
  - rewrite lookup_insert_ne, lookup_insert_eq; [eauto | discriminate].
  - rewrite lookup_insert_eq. eauto.
Qed.

Lemma X5_outputs_only_from_completed_run_witness :
  exists o,
    exports (final sample_aws sample_env) !! "instance_public_ip" = Some o /\
    (outcome sample_aws sample_env = inr tt /\
     is_Some (exports (final sample_aws sample_env) !! "instance_public_ip") /\
     is_Some (exports (final sample_aws sample_env) !! "ssh_command")).
Proof.
  eexists.
  refine ((fun H => conj H
             (X5_outputs_only_from_completed_run sample_aws sample_env _ _ H)) _).
  vm_compute. reflexivity.
Defined.

(** X6: a completed run has registered eight resources; a run that raised
    has registered two or six, and neither the key pair nor the instance. *)
Theorem X6_registered_count_by_outcome (aws : Provider) (env : Env) :
  (outcome aws env = inr tt /\
   length (resources (final aws env)) = 8%nat) \/
  (outcome aws env <> inr tt /\
   (length (resources (final aws env)) = 2%nat \/
    length (resources (final aws env)) = 6%nat) /\
   forall r, In r (resources (final aws env)) ->
     h_type (handle_of r) <> TKeyPair /\ h_type (handle_of r) <> TInstance).
Proof.
  run_cases aws env.
  - right. split; [discriminate|]. split; [left; reflexivity|].
    intros r H. pick H; subst r; split; discriminate.
  - right. split; [discriminate|]. split; [left; reflexivity|].
    intros r H. pick H; subst r; split; discriminate.
  - right. split; [discriminate|]. split; [right; reflexivity|].
    intros r H. pick H; subst r; split; discriminate.
  - right. split; [discriminate|]. split; [right; reflexivity|].
    intros r H. pick H; subst r; split; discriminate.
  - left. split; reflexivity.
Qed.

(** ** Names and references *)

(** X7: in every run, completed or not, the registered resources have
    pairwise distinct logical names. *)
Theorem X7_logical_names_distinct (aws : Provider) (env : Env) :
  NoDup (map (fun r => h_name (handle_of r)) (resources (final aws env))).
Proof.
  run_cases aws env; refine (bool_decide_unpack _ _); vm_compute; exact I.
Qed.

Lemma registered_in_spec (seen : list Handle) (h : Handle) :
  registered_in seen h = true <-> In h seen.
Proof.
  unfold registered_in. rewrite existsb_exists. split.
  - intros (h' & Hin & Heq). apply bool_decide_eq_true in Heq. now subst h'.
  - intros Hin. exists h. split; [exact Hin | now apply bool_decide_eq_true].
Qed.

(** What the check [backward_closed] establishes for each description of
    the list. *)
Lemma backward_closed_spec (l : list Resource) :
  forall (seen : list Handle) (before : list Resource) (r : Resource)
         (after : list Resource) (h : Handle),
    backward_closed seen l = true ->
    l = before ++ r :: after ->
    In h (references r) ->
    In h (seen ++ map handle_of before).
Proof.
  induction l as [|x l IH]; intros seen before r after h Hc Hl Hh.
  - destruct before; discriminate Hl.
  - simpl in Hc. apply andb_true_iff in Hc as [Hx Hrest].
    destruct before as [|b before]; simpl in Hl; injection Hl as -> ->.
    + rewrite forallb_forall in Hx. specialize (Hx h Hh).
      apply registered_in_spec in Hx. simpl. now rewrite app_nil_r.
    + specialize (IH _ _ _ _ h Hrest eq_refl Hh).
      simpl. now rewrite <- app_assoc in IH.
Qed.

(** X8: in every run, each registered resource refers only to resources
    registered before it: there is no dangling and no forward reference,
    also when the run stops half way. *)
Theorem X8_references_point_backwards
    (aws : Provider) (env : Env)
    (before : list Resource) (r : Resource) (after : list Resource) (h : Handle) :
  resources (final aws env) = before ++ r :: after ->
  In h (references r) ->
  In h (map handle_of before).
Proof.
  intros Hl Hh.
  apply (backward_closed_spec (resources (final aws env)) [] before r after h);
    [|exact Hl|exact Hh].
  clear. run_cases aws env; reflexivity.
Qed.

Lemma X8_references_point_backwards_witness :
  exists r,
    resources (final sample_aws sample_env) !! 7%nat = Some r /\
    In {| h_type := TKeyPair; h_name := "my-key-pair" |} (references r) /\
    In {| h_type := TKeyPair; h_name := "my-key-pair" |}
       (map handle_of (firstn 7 (resources (final sample_aws sample_env)))).
Proof.
  eexists. split; [vm_compute; reflexivity|].
  match goal with
  | |- In ?h (references ?r) /\ _ =>
      assert (resources (final sample_aws sample_env)
              = firstn 7 (resources (final sample_aws sample_env)) ++ r :: [])
        as Hl by (vm_compute; reflexivity);
      assert (In h (references r)) as Hh
        by (vm_compute; do 2 right; left; reflexivity);
      exact (conj Hh
               (X8_references_point_backwards sample_aws sample_env _ _ _ _ Hl Hh))
  end.
Defined.

(** X9: every resource an exported output is computed from is registered. *)
Theorem X9_outputs_refer_to_registered
    (aws : Provider) (env : Env) (k : string) (o : Output) (h : Handle) :
  exports (final aws env) !! k = Some o ->
  In h (output_refs o) ->
  In h (map handle_of (resources (final aws env))).
Proof.
  intros Hk Hh.
  run_cases aws env; try (rewrite lookup_empty in Hk; discriminate Hk).
  apply lookup_insert_Some in Hk as [[_ <-] | [_ Hk]].
  - simpl in Hh. pick Hh. subst h. do 7 right. left. reflexivity.
  - apply lookup_insert_Some in Hk as [[_ <-] | [_ Hk]].
    + simpl in Hh. pick Hh. subst h. do 7 right. left. reflexivity.
    + rewrite lookup_empty in Hk. discriminate Hk.
Qed.

Lemma X9_outputs_refer_to_registered_witness :
  exists o,
    (exports (final sample_aws sample_env) !! "ssh_command" = Some o /\
     In {| h_type := TInstance; h_name := "my-instance" |} (output_refs o)) /\
    In {| h_type := TInstance; h_name := "my-instance" |}
       (map handle_of (resources (final sample_aws sample_env))).
Proof.
  eexists.
  refine ((fun H => conj H
             (X9_outputs_refer_to_registered sample_aws sample_env _ _ _
                (proj1 H) (proj2 H))) _).
  split; vm_compute; [reflexivity | left; reflexivity].
Defined.

(** ** Files *)

(** X10: the script opens no file but the key file, and opens it at most
    once; it is opened exactly when the provider returned an availability
    zone and [os.getcwd()] did not raise. *)
Theorem X10_only_key_file_opened (aws : Provider) (env : Env) :
  (opened (final aws env) = [] /\
   ~ ((exists zone names,
         describe_availability_zones aws (credentials env) = inr (zone :: names)) /\
      getcwd_error env = None)) \/
  (opened (final aws env) = [key_path env] /\
   (exists zone names,
      describe_availability_zones aws (credentials env) = inr (zone :: names)) /\
   getcwd_error env = None).
Proof.
  run_cases aws env.
  - left. split; [reflexivity|]. intros [(z & n & H) _]. discriminate H.
  - left. split; [reflexivity|]. intros [(z & n & H) _]. discriminate H.
  - left. split; [reflexivity|]. intros [_ H]. discriminate H.
  - right. split; [reflexivity|]. split; eauto.
  - right. split; [reflexivity|]. split; eauto.
Qed.

Lemma universal_newlines_bounded (n : nat) :
  forall s : string,
    (String.length s <= n)%nat -> has_cr (universal_newlines s) = false.
Proof.
  induction n as [|n IH]; intros [|c s] Hn; try reflexivity.
  - simpl in Hn. lia.
  - simpl in Hn. simpl.
    destruct (Ascii.eqb c CR) eqn:Hc.
    + destruct s as [|c' s']; [reflexivity|].
      destruct (Ascii.eqb c' LF); simpl.
      * apply (IH s'). simpl in Hn. lia.
      * apply (IH (String c' s')). lia.
    + simpl. rewrite Hc. apply IH. lia.
Qed.

(** X11: the public key of a declared key pair contains no carriage
    return, whatever the key file contains, and translating its line
    endings once more changes nothing. *)
Theorem X11_public_key_has_no_carriage_return
    (aws : Provider) (env : Env) (name : string) (args : KeyPairArgs.t) :
  In (KeyPairDecl name args) (resources (final aws env)) ->
  has_cr (KeyPairArgs.public_key args) = false /\
  universal_newlines (KeyPairArgs.public_key args) = KeyPairArgs.public_key args.
Proof.
  intros H. run_cases aws env; pick H. injection H as <- <-. simpl.
  assert (has_cr (universal_newlines contents) = false) as Hcr
    by (apply (universal_newlines_bounded (String.length contents)); lia).
  split; [exact Hcr | now apply universal_newlines_no_cr].
Qed.

Lemma X11_public_key_has_no_carriage_return_witness :
  exists args,
    In (KeyPairDecl "my-key-pair" args) (resources (final sample_aws crlf_env)) /\
    (has_cr (KeyPairArgs.public_key args) = false /\
     universal_newlines (KeyPairArgs.public_key args) = KeyPairArgs.public_key args).
Proof.
  eexists.
  refine ((fun H => conj H
             (X11_public_key_has_no_carriage_return sample_aws crlf_env _ _ H)) _).
  vm_compute. do 6 right. left. reflexivity.
Defined.

(** ** What the firewall and the routing amount to *)

(** X12: a declared security group opens nothing inbound but SSH: it has
    one ingress rule and one egress rule, and every ingress rule is TCP
    from port 22 to port 22. *)
Theorem X12_only_ssh_inbound
    (aws : Provider) (env : Env) (name : string) (args : SecurityGroupArgs.t) :
  In (SecurityGroupDecl name args) (resources (final aws env)) ->
  length (SecurityGroupArgs.ingress args) = 1%nat /\
  length (SecurityGroupArgs.egress args) = 1%nat /\
  forall rule,
    In rule (SecurityGroupArgs.ingress args) ->
    SecurityGroupIngressArgs.protocol rule = "tcp" /\
    SecurityGroupIngressArgs.from_port rule = 22 /\
    SecurityGroupIngressArgs.to_port rule = 22.
Proof.
  intros H.
  run_cases aws env; pick H; injection H as <- <-;
    (split; [reflexivity|]; split; [reflexivity|];
     intros rule Hr; simpl in Hr; pick Hr; subst rule; repeat split).
Qed.

Lemma X12_only_ssh_inbound_witness :
  exists args,
    In (SecurityGroupDecl "ssh-security-group" args)
       (resources (final sample_aws sample_env)) /\
    (length (SecurityGroupArgs.ingress args) = 1%nat /\
     length (SecurityGroupArgs.egress args) = 1%nat /\
     forall rule,
       In rule (SecurityGroupArgs.ingress args) ->
       SecurityGroupIngressArgs.protocol rule = "tcp" /\
       SecurityGroupIngressArgs.from_port rule = 22 /\
       SecurityGroupIngressArgs.to_port rule = 22).
Proof.
  eexists.
  refine ((fun H => conj H (X12_only_ssh_inbound sample_aws sample_env _ _ H)) _).
  vm_compute. do 5 right. left. reflexivity.
Defined.

Lemma block_0_0_0_0_is_everything (a : Z) :
  cidr_member a {| network := 0; prefix := 0 |} = true.
Proof.
  unfold cidr_member. simpl. change (netmask 0) with 0.
  rewrite Z.land_0_r. reflexivity.
Qed.

(** X13: the ingress rule of a declared security group is described as
    "SSH from anywhere", and its source block does contain every 32-bit
    address. *)
Theorem X13_ssh_from_anywhere
    (aws : Provider) (env : Env) (name : string) (args : SecurityGroupArgs.t)
    (rule : SecurityGroupIngressArgs.t) (block : string) :
  In (SecurityGroupDecl name args) (resources (final aws env)) ->
  In rule (SecurityGroupArgs.ingress args) ->
  In block (SecurityGroupIngressArgs.cidr_blocks rule) ->
  SecurityGroupIngressArgs.description rule = "SSH from anywhere" /\
  exists b,
    parse_cidr block = Some b /\
    forall a : Z, 0 <= a < 2 ^ 32 -> cidr_member a b = true.
Proof.
  intros H Hr Hb.
  run_cases aws env; pick H; injection H as <- <-;
    simpl in Hr; pick Hr; subst rule;
    simpl in Hb; pick Hb; subst block;
    (split; [reflexivity|]; eexists;
     split; [vm_compute; reflexivity|];
     intros a _; apply block_0_0_0_0_is_everything).
Qed.

Lemma X13_ssh_from_anywhere_witness :
  exists args rule,
    (In (SecurityGroupDecl "ssh-security-group" args)
        (resources (final sample_aws sample_env)) /\
     In rule (SecurityGroupArgs.ingress args) /\
     In "0.0.0.0/0" (SecurityGroupIngressArgs.cidr_blocks rule)) /\
    (SecurityGroupIngressArgs.description rule = "SSH from anywhere" /\
     exists b,
       parse_cidr "0.0.0.0/0" = Some b /\
       forall a : Z, 0 <= a < 2 ^ 32 -> cidr_member a b = true).
Proof.
  eexists _, _.
  refine ((fun H => conj H
             (X13_ssh_from_anywhere sample_aws sample_env _ _ _ _
                (proj1 H) (proj1 (proj2 H)) (proj2 (proj2 H)))) _).
  split; [vm_compute; do 5 right; left; reflexivity|].
  split; [vm_compute; left; reflexivity | vm_compute; left; reflexivity].
Defined.

(** X14: a declared instance sits in a public subnet: its subnet assigns
    public addresses on launch and is associated with a route table whose
    route to "0.0.0.0/0" goes through an internet gateway attached to the
    subnet's own VPC. *)
Theorem X14_instance_in_public_subnet
    (aws : Provider) (env : Env) (name : string) (inst : InstanceArgs.t) :
  In (InstanceDecl name inst) (resources (final aws env)) ->
  exists sn subnet an assoc tn table gn igw,
    In (SubnetDecl sn subnet) (resources (final aws env)) /\
    In (RouteTableAssociationDecl an assoc) (resources (final aws env)) /\
    In (RouteTableDecl tn table) (resources (final aws env)) /\
    In (InternetGatewayDecl gn igw) (resources (final aws env)) /\
    InstanceArgs.subnet_id inst = attr.id (handle_of (SubnetDecl sn subnet)) /\
    SubnetArgs.map_public_ip_on_launch subnet = true /\
    RouteTableAssociationArgs.subnet_id assoc
      = attr.id (handle_of (SubnetDecl sn subnet)) /\
    RouteTableAssociationArgs.route_table_id assoc
      = attr.id (handle_of (RouteTableDecl tn table)) /\
    (exists route,
       In route (RouteTableArgs.routes table) /\
       RouteTableRouteArgs.cidr_block route = "0.0.0.0/0" /\
       RouteTableRouteArgs.gateway_id route
         = attr.id (handle_of (InternetGatewayDecl gn igw))) /\
    InternetGatewayArgs.vpc_id igw = SubnetArgs.vpc_id subnet.
Proof.
  intros H. run_cases aws env; pick H. injection H as <- <-.
  eexists _, _, _, _, _, _, _, _.
  split; [do 2 right; left; reflexivity|].
  split; [do 4 right; left; reflexivity|].
  split; [do 3 right; left; reflexivity|].
  split; [right; left; reflexivity|].
  repeat (split; [reflexivity|]).
  split; [|reflexivity].
  eexists. split; [left; reflexivity|]. split; reflexivity.
Qed.

Lemma X14_instance_in_public_subnet_witness :
  exists inst,
    In (InstanceDecl "my-instance" inst) (resources (final sample_aws sample_env)) /\
    exists sn subnet,
      In (SubnetDecl sn subnet) (resources (final sample_aws sample_env)) /\
      InstanceArgs.subnet_id inst = attr.id (handle_of (SubnetDecl sn subnet)) /\
      SubnetArgs.map_public_ip_on_launch subnet = true.
Proof.
  eexists.
  match goal with
  | |- ?A /\ _ =>
      assert A as H by (vm_compute; do 7 right; left; reflexivity)
  end.
  split; [exact H|].
  destruct (X14_instance_in_public_subnet sample_aws sample_env _ _ H)
    as (sn & subnet & _ & _ & _ & _ & _ & _ & Hs & _ & _ & _ & Hi & Hm & _).
  exists sn, subnet. exact (conj Hs (conj Hi Hm)).
Defined.

(** X15: every tagged resource of a run carries exactly one tag, "Name",
    whose value is the resource's logical name. *)
Theorem X15_name_tag_is_logical_name
    (aws : Provider) (env : Env) (r : Resource) (t : gmap string string) :
  In r (resources (final aws env)) ->
  tags_of r = Some t ->
  t = {[ "Name" := h_name (handle_of r) ]}.
Proof.
  intros H Ht.
  run_cases aws env; pick H; subst r; simpl in Ht;
    first [discriminate Ht | injection Ht as <-; reflexivity].
Qed.

Lemma X15_name_tag_is_logical_name_witness :
  exists r t,
    (In r (resources (final sample_aws sample_env)) /\ tags_of r = Some t) /\
    h_name (handle_of r) = "my-instance" /\
    t = {[ "Name" := h_name (handle_of r) ]}.
Proof.
  eexists (List.last (resources (final sample_aws sample_env))
             (VpcDecl EmptyString
                {| VpcArgs.cidr_block := EmptyString;
                   VpcArgs.enable_dns_hostnames := false;
                   VpcArgs.enable_dns_support := false;
                   VpcArgs.tags := ∅ |})), _.
  match goal with
  | |- ?A /\ _ =>
      assert A as H
        by (split; [vm_compute; do 7 right; left; reflexivity | reflexivity])
  end.
  split; [exact H|]. split; [reflexivity|].
  exact (X15_name_tag_is_logical_name sample_aws sample_env _ _ (proj1 H) (proj2 H)).
Defined.

(** ** Failure of the working-directory lookup *)

(** X16: when an availability zone was returned and [os.getcwd()] raises
    [e], the run ends with [e] itself; the six resources before the key
    pair are registered, no file is opened and nothing is exported. *)
Theorem X16_getcwd_failure_aborts
    (aws : Provider) (env : Env) (zone : string) (names : list string) (e : exn) :
  describe_availability_zones aws (credentials env) = inr (zone :: names) ->
  getcwd_error env = Some e ->
  outcome aws env = inl e /\
  opened (final aws env) = [] /\
  exports (final aws env) = ∅ /\
  exists vpc igw subnet table assoc group,
    resources (final aws env)
      = [ VpcDecl "my-vpc" vpc; InternetGatewayDecl "my-igw" igw;
          SubnetDecl "public-subnet" subnet;
          RouteTableDecl "public-route-table" table;
          RouteTableAssociationDecl "public-route-table-association" assoc;
          SecurityGroupDecl "ssh-security-group" group ].
Proof.
  intros Hz Hg. run_unfold. rewrite Hz. simpl. rewrite Hg. simpl.
  repeat split. eexists _, _, _, _, _, _. reflexivity.
Qed.

Lemma X16_getcwd_failure_aborts_witness :
  outcome sample_aws gone_env = inl (OSError 2 EmptyString) /\
  opened (final sample_aws gone_env) = [] /\
  exports (final sample_aws gone_env) = ∅ /\
  exists vpc igw subnet table assoc group,
    resources (final sample_aws gone_env)
      = [ VpcDecl "my-vpc" vpc; InternetGatewayDecl "my-igw" igw;
          SubnetDecl "public-subnet" subnet;
          RouteTableDecl "public-route-table" table;
          RouteTableAssociationDecl "public-route-table-association" assoc;
          SecurityGroupDecl "ssh-security-group" group ].
Proof.
  apply (X16_getcwd_failure_aborts sample_aws gone_env
           "us-east-1a" ["us-east-1b"]).
  - reflexivity.
  - reflexivity.
Defined.
